(** * The cross-reference driver script

    A shallow embedding of [database/scripts/generate_cross_references.py]:
    the function [main], the [posixpath] helpers it calls, and the
    environment it runs in (the user's home, the value of [__file__], the
    file system, and the delegate class [CrossReferencesGeneratorPSQL]).

    The driver is effectful glue, so it is written in a small
    state-and-exception monad over the file system and an event log; the
    properties are statements about the log, the final file system and the
    outcome of a run. *)

From stdpp Require Import gmap strings list fin_maps.
From Stdlib Require Import ZArith Ascii.

Open Scope string_scope.

(** ** Path helpers ([posixpath]) *)

Module PosixPath.

Definition sep : ascii := "/"%char.
Definition tilde : ascii := "~"%char.

Definition is_sep (c : ascii) : bool := Ascii.eqb c sep.

Definition is_empty (s : string) : bool :=
  match s with EmptyString => true | String _ _ => false end.

(** [s.startswith('/')] *)
Definition startswith_sep (s : string) : bool :=
  match s with String c _ => is_sep c | EmptyString => false end.

(** [s.endswith('/')] *)
Fixpoint endswith_sep (s : string) : bool :=
  match s with
  | EmptyString => false
  | String c EmptyString => is_sep c
  | String _ r => endswith_sep r
  end.

(** ['/' in s] *)
Fixpoint has_sep (s : string) : bool :=
  match s with
  | EmptyString => false
  | String c r => is_sep c || has_sep r
  end.

(** [s == '/' * len(s)] *)
Fixpoint all_sep (s : string) : bool :=
  match s with
  | EmptyString => true
  | String c r => is_sep c && all_sep r
  end.

(** [s.rstrip('/')] *)
Fixpoint rstrip_sep (s : string) : string :=
  match s with
  | EmptyString => EmptyString
  | String c r =>
      let r' := rstrip_sep r in
      if is_sep c && is_empty r' then EmptyString else String c r'
  end.

(** [p[:p.rfind('/') + 1]]: everything up to and including the last
    separator, the empty string when there is none. *)
Fixpoint upto_last_sep (p : string) : string :=
  match p with
  | EmptyString => EmptyString
  | String c r => if has_sep p then String c (upto_last_sep r) else EmptyString
  end.

(** [p[:i]] and [p[i:]] for [i = p.find('/')], with [i = len(p)] when
    there is no separator. *)
Fixpoint before_sep (p : string) : string :=
  match p with
  | EmptyString => EmptyString
  | String c r => if is_sep c then EmptyString else String c (before_sep r)
  end.

Fixpoint from_sep (p : string) : string :=
  match p with
  | EmptyString => EmptyString
  | String c r => if is_sep c then p else from_sep r
  end.

(** [os.path.dirname]:
<<
    i = p.rfind(sep) + 1
    head = p[:i]
    if head and head != sep*len(head):
        head = head.rstrip(sep)
    return head
>> *)
Definition dirname (p : string) : string :=
  let head := upto_last_sep p in
  if negb (is_empty head) && negb (all_sep head) then rstrip_sep head else head.

(** [os.path.join(a, b)] with one extra component:
<<
    if b.startswith(sep):            path = b
    elif not path or path.endswith(sep): path += b
    else:                            path += sep + b
>> *)
Definition join (a b : string) : string :=
  if startswith_sep b then b
  else if is_empty a || endswith_sep a then a +:+ b
  else a +:+ String sep b.

(** [os.path.expanduser].  [home] is what the lookup of the current
    user's home yields ([$HOME], else the password database entry; [None]
    when neither is there) and [pw] is the password database for the
    [~name] form.  A path that does not start with a tilde, or whose user
    cannot be found, comes back unchanged; otherwise the home directory
    without its trailing separators replaces the [~name] prefix, and an
    empty result becomes the root. *)
Definition expanduser (home : option string) (pw : string -> option string)
    (path : string) : string :=
  match path with
  | String c rest =>
      if Ascii.eqb c tilde then
        let name := before_sep rest in
        let tail := from_sep rest in
        let userhome := if is_empty name then home else pw name in
        match userhome with
        | None => path
        | Some h =>
            let r := rstrip_sep h +:+ tail in
            if is_empty r then String sep EmptyString else r
        end
      else path
  | EmptyString => path
  end.

(** [s.split('/')]: never empty, one more piece than there are
    separators. *)
Fixpoint split_sep (s : string) : list string :=
  match s with
  | EmptyString => [EmptyString]
  | String c r =>
      if is_sep c then EmptyString :: split_sep r
      else match split_sep r with
           | x :: xs => String c x :: xs
           | [] => [String c EmptyString]
           end
  end.

(** ['/'.join(comps)] *)
Fixpoint join_sep (comps : list string) : string :=
  match comps with
  | [] => EmptyString
  | [x] => x
  | x :: r => x +:+ String sep (join_sep r)
  end.

(** [sep * n] *)
Fixpoint seps (n : nat) : string :=
  match n with O => EmptyString | S k => String sep (seps k) end.

(** The count of leading slashes that [normpath] keeps: none for a
    relative path, two for exactly two, one otherwise.
<<
    initial_slashes = path.startswith(sep)
    if (initial_slashes and
        path.startswith(sep*2) and not path.startswith(sep*3)):
        initial_slashes = 2
>> *)
Definition initial_slashes (path : string) : nat :=
  match path with
  | String c1 r1 =>
      if is_sep c1 then
        match r1 with
        | String c2 r2 =>
            if is_sep c2 then (if startswith_sep r2 then 1 else 2) else 1
        | EmptyString => 1
        end
      else 0
  | EmptyString => 0
  end.

Definition is_nil (l : list string) : bool :=
  match l with [] => true | _ :: _ => false end.

(** [new_comps and new_comps[-1] == dotdot] *)
Definition last_is_dotdot (l : list string) : bool :=
  match last l with Some x => String.eqb x ".." | None => false end.

(** One turn of the loop of [normpath]:
<<
    if comp in (empty, dot):
        continue
    if (comp != dotdot or (not initial_slashes and not new_comps) or
         (new_comps and new_comps[-1] == dotdot)):
        new_comps.append(comp)
    elif new_comps:
        new_comps.pop()
>> *)
Definition norm_step (slashes : nat) (new_comps : list string) (comp : string)
    : list string :=
  if String.eqb comp EmptyString || String.eqb comp "." then new_comps
  else if negb (String.eqb comp "..")
          || (Nat.eqb slashes 0 && is_nil new_comps)
          || last_is_dotdot new_comps
  then new_comps ++ [comp]
  else removelast new_comps.

(** [os.path.normpath] *)
Definition normpath (path : string) : string :=
  if is_empty path then "."
  else
    let slashes := initial_slashes path in
    let comps := fold_left (norm_step slashes) (split_sep path) [] in
    let p := seps slashes +:+ join_sep comps in
    if is_empty p then "." else p.

(** [os.path.abspath], [cwd] being [os.getcwd()]:
<<
    if not path.startswith('/'):
        path = join(os.getcwd(), path)
    return normpath(path)
>> *)
Definition abspath (cwd path : string) : string :=
  normpath (if startswith_sep path then path else join cwd path).

(** The absolute path [/c1/c2/.../cn] with the given components; the empty
    string for none. *)
Fixpoint rooted (comps : list string) : string :=
  match comps with
  | [] => EmptyString
  | c :: r => String sep (c +:+ rooted r)
  end.

(** A plain file or directory name: not empty, no separator, neither [.]
    nor [..]. *)
Definition is_name (c : string) : bool :=
  negb (is_empty c) && negb (has_sep c)
  && negb (String.eqb c ".") && negb (String.eqb c "..").

(** The directory with the given components, as an absolute path: the
    root for none. *)
Definition directory_of (comps : list string) : string :=
  match comps with
  | [] => String sep EmptyString
  | _ :: _ => rooted comps
  end.

Definition names (l : list string) : Prop :=
  Forall (fun c => is_name c = true) l.

End PosixPath.

(** ** The environment of a run *)

(** What [os.stat] finds at a path. *)
Inductive Entry : Type :=
| Directory
| RegularFile (content : string)
| Special.

(** The file system: the paths at which [os.stat] succeeds, with what is
    there.  A path that is absent, a dangling link and a path below an
    unreadable directory all have no entry. *)
Abbreviation FileSystem := (gmap string Entry).

(** The read-only part of the process state. *)
Record Env : Type := {
  user_home : option string;          (* the current user's home, if any *)
  pw_dir : string -> option string;   (* other users' homes *)
  script_file : string;               (* [__file__] *)
  cwd : string;                       (* [os.getcwd()] *)
  argv : list string                  (* [sys.argv] *)
}.

(** Python exceptions, as far as the exit status tells them apart. *)
Inductive PyExc : Type :=
| SystemExit (code : Z)
| Error (cls : string) (msg : string).

(** A [CrossReferencesGeneratorPSQL] object: the two paths it was built
    with. *)
Record Generator : Type := {
  gen_source : string;
  gen_format : string
}.

(** Modelled from the spec: the class [CrossReferencesGeneratorPSQL] lives
    in [scripts/generators/postgresql/cross_references_generator_psql.py],
    which is not part of the sources at hand.  It "consumes a source
    directory path and an output directory path at construction" and
    "exposes a single zero-argument generation operation with the side
    effect of writing one or more SQL files under the output path"; errors
    of either operation are Python exceptions.  So construction reads its
    two arguments (and may look at the file system) and either raises or
    yields the object; [generate] takes the object alone, transforms the
    file system, and may raise. *)
Record Delegate : Type := {
  d_init : string -> string -> FileSystem -> option PyExc;
  d_generate : Generator -> FileSystem -> FileSystem * option PyExc
}.

(** ** Observable events of the driver *)

Inductive Event : Type :=
| EvExists (path : string) (found : bool)   (* [os.path.exists(path)] *)
| EvPrint (text : string)                   (* [print(text)] *)
| EvInit (source format : string)           (* the constructor call *)
| EvGenerate (g : Generator).               (* [g.generate()] *)

Record State : Type := {
  fs : FileSystem;
  log : list Event          (* oldest event first *)
}.

(** ** The monad: state plus exceptions *)

Definition M (A : Type) : Type := State -> State * (PyExc + A).

Definition ret {A} (a : A) : M A := fun s => (s, inr a).

Definition bind {A B} (m : M A) (k : A -> M B) : M B :=
  fun s =>
    match m s with
    | (s', inr a) => k a s'
    | (s', inl e) => (s', inl e)
    end.

Definition raise {A} (e : PyExc) : M A := fun s => (s, inl e).

Notation "x <- m ;; k" := (bind m (fun x => k))
  (at level 100, m at next level, right associativity).
Notation "m ;; k" := (bind m (fun _ => k))
  (at level 100, right associativity).

Definition emit (e : Event) : M unit :=
  fun s => ({| fs := fs s; log := log s ++ [e] |}, inr tt).

(** [os.path.exists]: does [os.stat] succeed?  Reads, never writes. *)
Definition path_exists (p : string) : M bool :=
  fun s =>
    let found := bool_decide (is_Some (fs s !! p)) in
    ({| fs := fs s; log := log s ++ [EvExists p found] |}, inr found).

(** [print(text)] on a standard output that takes the text. *)
Definition print (text : string) : M unit := emit (EvPrint text).

Definition nl : string := String (Ascii.ascii_of_nat 10) EmptyString.

Section Driver.

Variable env : Env.
Variable D : Delegate.

(** [CrossReferencesGeneratorPSQL(source, format)] *)
Definition construct (source format : string) : M Generator :=
  emit (EvInit source format) ;;
  fun s =>
    match d_init D source format (fs s) with
    | Some e => (s, inl e)
    | None => (s, inr {| gen_source := source; gen_format := format |})
    end.

(** [g.generate()] *)
Definition generate (g : Generator) : M unit :=
  emit (EvGenerate g) ;;
  fun s =>
    let '(fs', r) := d_generate D g (fs s) in
    ({| fs := fs'; log := log s |},
     match r with Some e => inl e | None => inr tt end).

(** [os.path.expanduser('~/Downloads/bible_databases/sources')] *)
Definition source_directory : string :=
  PosixPath.expanduser (user_home env) (pw_dir env)
    "~/Downloads/bible_databases/sources".

(** [os.path.join(os.path.dirname(__file__), 'output')] *)
Definition format_directory : string :=
  PosixPath.join (PosixPath.dirname (script_file env)) "output".

Definition remediation_1 : string :=
  "ERROR: Please download the bible_databases repo first:".
Definition remediation_2 : string :=
  "cd ~/Downloads && git clone https://github.com/scrollmapper/bible_databases.git".
Definition confirmation_1 : string :=
  nl +:+ "✅ Cross-reference SQL file generated!".
Definition confirmation_2 : string :=
  "📁 Location: " +:+ format_directory +:+ "/psql/extras/".

(** The statements after the existence check. *)
Definition success_case : M unit :=
  cross_references_generator <- construct source_directory format_directory ;;
  generate cross_references_generator ;;
  print confirmation_1 ;;
  print confirmation_2.

(** [main()].  The early [return] of the source is the first branch. *)
Definition main : M unit :=
  found <- path_exists source_directory ;;
  if negb found then
    print remediation_1 ;;
    print remediation_2 ;;
    ret tt
  else
    success_case.

(** [if __name__ == "__main__": main()] *)
Definition script (name : string) : M unit :=
  if String.eqb name "__main__" then main else ret tt.

End Driver.

(** ** Running the driver *)

Definition initial (f : FileSystem) : State := {| fs := f; log := [] |}.

Definition run (env : Env) (D : Delegate) (f : FileSystem) : State * (PyExc + unit) :=
  main env D (initial f).

Definition trace (env : Env) (D : Delegate) (f : FileSystem) : list Event :=
  log (fst (run env D f)).

Definition final_fs (env : Env) (D : Delegate) (f : FileSystem) : FileSystem :=
  fs (fst (run env D f)).

(** [None]: [main] returned; [Some e]: [e] left [main] uncaught. *)
Definition outcome (env : Env) (D : Delegate) (f : FileSystem) : option PyExc :=
  match snd (run env D f) with inl e => Some e | inr _ => None end.

(** The status a POSIX shell reports when the script ends this way: 0
    after a normal end, the low eight bits of the code of a [SystemExit],
    130 for an uncaught [KeyboardInterrupt] (the interpreter then ends
    itself by SIGINT), 1 for any other uncaught exception. *)
Definition exit_status (o : option PyExc) : Z :=
  match o with
  | None => 0
  | Some (SystemExit code) => (code mod 256)%Z
  | Some (Error cls _) => if String.eqb cls "KeyboardInterrupt" then 130 else 1
  end.

(** What reaches standard output: each printed text and a newline. *)
Fixpoint console (l : list Event) : string :=
  match l with
  | [] => EmptyString
  | EvPrint text :: r => text +:+ nl +:+ console r
  | _ :: r => console r
  end.

Definition is_init (e : Event) : bool :=
  match e with EvInit _ _ => true | _ => false end.
Definition is_generate (e : Event) : bool :=
  match e with EvGenerate _ => true | _ => false end.
Definition is_exists (e : Event) : bool :=
  match e with EvExists _ _ => true | _ => false end.
Definition is_print (e : Event) : bool :=
  match e with EvPrint _ => true | _ => false end.

Definition count (p : Event -> bool) (l : list Event) : nat :=
  length (List.filter p l).

(** ** Concrete environments, file systems and delegates *)

Definition env_luke : Env :=
  {| user_home := Some "/home/luke";
     pw_dir := fun _ => None;
     script_file := "/srv/koinonia/database/scripts/generate_cross_references.py";
     cwd := "/srv/koinonia";
     argv := ["generate_cross_references.py"] |}.

(** The same user and script, started elsewhere with extra arguments. *)
Definition env_luke_args : Env :=
  {| user_home := Some "/home/luke";
     pw_dir := fun _ => None;
     script_file := "/srv/koinonia/database/scripts/generate_cross_references.py";
     cwd := "/tmp";
     argv := ["generate_cross_references.py"; "--out"; "/tmp/elsewhere"] |}.

Definition fs_empty : FileSystem := ∅.

Definition fs_cloned : FileSystem :=
  {[ "/home/luke/Downloads/bible_databases/sources" := Directory ]}.

(** A regular file sits where the directory should be. *)
Definition fs_file_in_place : FileSystem :=
  {[ "/home/luke/Downloads/bible_databases/sources" := RegularFile "not a directory" ]}.

(** A delegate that writes one SQL file under the output path. *)
Definition D_writer : Delegate :=
  {| d_init := fun _ _ _ => None;
     d_generate := fun g f =>
       (<[ gen_format g +:+ "/psql/extras/cross_references.sql"
           := RegularFile "CREATE TABLE cross_references ();" ]> f, None) |}.

(** A delegate whose constructor raises. *)
Definition D_refusing : Delegate :=
  {| d_init := fun _ _ _ => Some (Error "FileNotFoundError" "cross_references.txt");
     d_generate := fun _ f => (f, None) |}.

(** A delegate whose [generate] raises after a partial write. *)
Definition D_failing : Delegate :=
  {| d_init := fun _ _ _ => None;
     d_generate := fun g f =>
       (<[ gen_format g +:+ "/psql/extras/cross_references.sql" := RegularFile EmptyString ]> f,
        Some (Error "ValueError" "malformed row")) |}.

(** ** Shapes of a run *)

(** The events of a run in which every call returns. *)
Definition full_sequence (env : Env) : list Event :=
  let src := source_directory env in
  let fmt := format_directory env in
  [EvExists src true; EvInit src fmt;
   EvGenerate {| gen_source := src; gen_format := fmt |};
   EvPrint confirmation_1; EvPrint (confirmation_2 env)].

(** What the sentence "construct exactly once with the two resolved paths
    and invoke generation exactly once" says of one run. *)
Definition constructs_and_generates_once (env : Env) (D : Delegate)
    (f : FileSystem) : Prop :=
  let t := trace env D f in
  let g := {| gen_source := source_directory env;
              gen_format := format_directory env |} in
  List.filter is_init t = [EvInit (source_directory env) (format_directory env)]
  /\ List.filter is_generate t = [EvGenerate g].

(** ** The module around [main] *)

(** The interpreter's import machinery, as the script sees it: given
    [sys.path] and the file system, the statement
    [from scripts.generators.postgresql.cross_references_generator_psql
     import CrossReferencesGeneratorPSQL]
    either binds the class or raises. *)
Definition Importer : Type := list string -> FileSystem -> PyExc + Delegate.

(** The state the module-level statements work on: [sys.path] beside the
    state of [main]. *)
Record Process : Type := {
  sys_path : list string;
  proc : State
}.

(** [os.path.abspath(os.path.join(os.path.dirname(__file__), '..'))] *)
Definition sys_path_entry (env : Env) : string :=
  PosixPath.abspath (cwd env)
    (PosixPath.join (PosixPath.dirname (script_file env)) "..").

(** The statements of the module in order: the [sys.path.append], the
    import, and the guarded call of [main] with the class just imported. *)
Definition module_body (env : Env) (imp : Importer) (name : string)
    (p : Process) : Process * (PyExc + unit) :=
  let path' := (sys_path p ++ [sys_path_entry env])%list in
  match imp path' (fs (proc p)) with
  | inl e => ({| sys_path := path'; proc := proc p |}, inl e)
  | inr D =>
      let '(s', r) := script env D name (proc p) in
      ({| sys_path := path'; proc := s' |}, r)
  end.

(** The script from a fresh interpreter: nothing logged yet. *)
Definition run_module (env : Env) (imp : Importer) (name : string)
    (path : list string) (f : FileSystem) : Process * (PyExc + unit) :=
  module_body env imp name {| sys_path := path; proc := initial f |}.

(** An importer that finds the package only below an entry of [sys.path]
    that holds a [scripts] directory. *)
Definition importer_on_path (D : Delegate) : Importer :=
  fun path f =>
    if existsb (fun d => match f !! (d +:+ "/scripts") with
                         | Some Directory => true
                         | _ => false
                         end) path
    then inr D
    else inl (Error "ModuleNotFoundError" "No module named 'scripts'").

Definition fs_project : FileSystem :=
  {[ "/srv/koinonia/database/scripts" := Directory;
     "/home/luke/Downloads/bible_databases/sources" := Directory ]}.

(** The script started by its bare name from its own directory, on an
    interpreter that leaves [__file__] as given. *)
Definition env_bare : Env :=
  {| user_home := Some "/home/luke/";
     pw_dir := fun _ => None;
     script_file := "generate_cross_references.py";
     cwd := "/srv/koinonia/database/scripts";
     argv := ["generate_cross_references.py"] |}.

(** [$HOME] written with a trailing slash. *)
Definition env_luke_slash : Env :=
  {| user_home := Some "/home/luke/";
     pw_dir := fun _ => None;
     script_file := "/srv/koinonia/database/scripts/generate_cross_references.py";
     cwd := "/srv/koinonia";
     argv := ["generate_cross_references.py"] |}.

(** A user without a home directory. *)
Definition env_homeless : Env :=
  {| user_home := None;
     pw_dir := fun _ => None;
     script_file := "/srv/koinonia/database/scripts/generate_cross_references.py";
     cwd := "/srv/koinonia";
     argv := ["generate_cross_references.py"] |}.

(** What the driver prints in its two talkative cases. *)
Definition remediation_text : string :=
  remediation_1 +:+ nl +:+ remediation_2 +:+ nl.

Definition confirmation_text (env : Env) : string :=
  confirmation_1 +:+ nl +:+ confirmation_2 env +:+ nl.

(** An event that names no path other than the two directories. *)
Definition names_only_the_directories (env : Env) (e : Event) : Prop :=
  match e with
  | EvExists p _ => p = source_directory env
  | EvInit s t => s = source_directory env /\ t = format_directory env
  | EvGenerate g =>
      gen_source g = source_directory env /\ gen_format g = format_directory env
  | EvPrint _ => True
  end.

(** ** [main] on a standard output that can refuse *)

(** The standard output stream as [print] meets it: for each text, either
    the write goes through ([None]) or it raises, as a stream whose
    encoding lacks a character of the text does with [UnicodeEncodeError].
    Nothing of a refused text reaches the stream. *)
Definition Console : Type := string -> option PyExc.

(** [print(text)] on such a stream. *)
Definition print_on (c : Console) (text : string) : M unit :=
  match c text with
  | Some e => raise e
  | None => emit (EvPrint text)
  end.

Section DriverOn.

Variable env : Env.
Variable D : Delegate.
Variable c : Console.

(** Lines 20 to 24. *)
Definition success_case_on : M unit :=
  cross_references_generator <-
    construct D (source_directory env) (format_directory env) ;;
  generate D cross_references_generator ;;
  print_on c confirmation_1 ;;
  print_on c (confirmation_2 env).

(** [main()], each [print] asking the stream. *)
Definition main_on : M unit :=
  found <- path_exists (source_directory env) ;;
  if negb found then
    print_on c remediation_1 ;;
    print_on c remediation_2 ;;
    ret tt
  else
    success_case_on.

End DriverOn.

Definition run_on (env : Env) (D : Delegate) (c : Console) (f : FileSystem)
    : State * (PyExc + unit) :=
  main_on env D c (initial f).

Definition trace_on (env : Env) (D : Delegate) (c : Console) (f : FileSystem)
    : list Event :=
  log (fst (run_on env D c f)).

(** A stream that takes every text. *)
Definition accepting : Console := fun _ => None.

Fixpoint is_ascii (s : string) : bool :=
  match s with
  | EmptyString => true
  | String ch r => Nat.ltb (nat_of_ascii ch) 128 && is_ascii r
  end.

(** A stream with the ASCII encoding and strict error handling. *)
Definition ascii_only : Console :=
  fun text =>
    if is_ascii text then None
    else Some (Error "UnicodeEncodeError" "'ascii' codec can't encode character").

(** The four texts [main] may print. *)
Definition driver_texts (env : Env) : list string :=
  [remediation_1; remediation_2; confirmation_1; confirmation_2 env].

(** The constructor or [generate] raises [e] in this run. *)
Definition delegate_raises (env : Env) (D : Delegate) (f : FileSystem)
    (e : PyExc) : Prop :=
  let src := source_directory env in
  let fmt := format_directory env in
  let g := {| gen_source := src; gen_format := fmt |} in
  is_Some (f !! src)
  /\ (d_init D src fmt f = Some e
      \/ (d_init D src fmt f = None /\ snd (d_generate D g f) = Some e)).

(** What the sentence "the driver raises an exception if and only if the
    delegate does" says of one run. *)
Definition raises_iff_delegate_raises (env : Env) (D : Delegate) (c : Console)
    (f : FileSystem) : Prop :=
  forall e, snd (run_on env D c f) = inl e <-> delegate_raises env D f e.

(** ** The path helpers on concrete paths *)

Example dirname_absolute :
  PosixPath.dirname "/srv/app/database/scripts/generate_cross_references.py"
  = "/srv/app/database/scripts".
Proof. reflexivity. Qed.

Example dirname_bare :
  PosixPath.dirname "generate_cross_references.py" = EmptyString.
Proof. reflexivity. Qed.

Example dirname_root : PosixPath.dirname "/generate_cross_references.py" = "/".
Proof. reflexivity. Qed.

Example join_plain : PosixPath.join "/srv/app/database/scripts" "output"
  = "/srv/app/database/scripts/output".
Proof. reflexivity. Qed.

Example join_empty : PosixPath.join EmptyString "output" = "output".
Proof. reflexivity. Qed.

Example join_root : PosixPath.join "/" "output" = "/output".
Proof. reflexivity. Qed.

Example expanduser_home :
  PosixPath.expanduser (Some "/home/luke/") (fun _ => None)
    "~/Downloads/bible_databases/sources"
  = "/home/luke/Downloads/bible_databases/sources".
Proof. reflexivity. Qed.

Example expanduser_no_home :
  PosixPath.expanduser None (fun _ => None) "~/Downloads/bible_databases/sources"
  = "~/Downloads/bible_databases/sources".
Proof. reflexivity. Qed.

(** ** The four runs of [main] *)

Section Runs.

Variable env : Env.
Variable D : Delegate.
Variable f : FileSystem.

Let src := source_directory env.
Let fmt := format_directory env.
Let g := {| gen_source := src; gen_format := fmt |}.

Lemma exists_false : f !! src = None -> bool_decide (is_Some (f !! src)) = false.
Proof.
  intros H. apply bool_decide_eq_false_2. rewrite H. intros [x Hx]. discriminate.
Qed.

Lemma exists_true : is_Some (f !! src) -> bool_decide (is_Some (f !! src)) = true.
Proof. intros H. by apply bool_decide_eq_true_2. Qed.

(** The source directory is missing. *)
Lemma run_missing :
  f !! src = None ->
  run env D f =
    ({| fs := f;
        log := [EvExists src false;
                EvPrint remediation_1; EvPrint remediation_2] |},
     inr tt).
Proof.
  intros H. unfold run, main, bind, path_exists, initial; cbn [fs log].
  fold src. rewrite (exists_false H). reflexivity.
Qed.

(** Something is there, and the constructor raises. *)
Lemma run_init_raises e :
  is_Some (f !! src) ->
  d_init D src fmt f = Some e ->
  run env D f =
    ({| fs := f; log := [EvExists src true; EvInit src fmt] |}, inl e).
Proof.
  intros H Hi.
  unfold run, main, success_case, construct, bind, path_exists, emit, initial;
    cbn [fs log].
  fold src fmt. rewrite (exists_true H). cbn [negb fs log app].
  rewrite Hi. reflexivity.
Qed.

(** The object is built, and [generate] raises. *)
Lemma run_generate_raises f' e :
  is_Some (f !! src) ->
  d_init D src fmt f = None ->
  d_generate D g f = (f', Some e) ->
  run env D f =
    ({| fs := f'; log := [EvExists src true; EvInit src fmt; EvGenerate g] |},
     inl e).
Proof.
  intros H Hi Hg.
  unfold run, main, success_case, construct, generate, bind, path_exists,
    emit, initial; cbn [fs log].
  fold src fmt. rewrite (exists_true H). cbn [negb fs log app].
  rewrite Hi. cbn [fs log app]. fold g. rewrite Hg. reflexivity.
Qed.

(** Both calls return. *)
Lemma run_success f' :
  is_Some (f !! src) ->
  d_init D src fmt f = None ->
  d_generate D g f = (f', None) ->
  run env D f =
    ({| fs := f';
        log := [EvExists src true; EvInit src fmt; EvGenerate g;
                EvPrint confirmation_1; EvPrint (confirmation_2 env)] |},
     inr tt).
Proof.
  intros H Hi Hg.
  unfold run, main, success_case, construct, generate, print, bind,
    path_exists, emit, initial; cbn [fs log].
  fold src fmt. rewrite (exists_true H). cbn [negb fs log app].
  rewrite Hi. cbn [fs log app]. fold g. rewrite Hg. reflexivity.
Qed.

End Runs.

(** ** The driver on the concrete environment *)

Example source_directory_luke :
  source_directory env_luke = "/home/luke/Downloads/bible_databases/sources".
Proof. reflexivity. Qed.

Example format_directory_luke :
  format_directory env_luke = "/srv/koinonia/database/scripts/output".
Proof. reflexivity. Qed.

Example trace_writer :
  trace env_luke D_writer fs_cloned =
    [EvExists "/home/luke/Downloads/bible_databases/sources" true;
     EvInit "/home/luke/Downloads/bible_databases/sources"
            "/srv/koinonia/database/scripts/output";
     EvGenerate {| gen_source := "/home/luke/Downloads/bible_databases/sources";
                   gen_format := "/srv/koinonia/database/scripts/output" |};
     EvPrint confirmation_1;
     EvPrint "📁 Location: /srv/koinonia/database/scripts/output/psql/extras/"].
Proof. vm_compute. reflexivity. Qed.

Example trace_empty :
  trace env_luke D_writer fs_empty =
    [EvExists "/home/luke/Downloads/bible_databases/sources" false;
     EvPrint "ERROR: Please download the bible_databases repo first:";
     EvPrint "cd ~/Downloads && git clone https://github.com/scrollmapper/bible_databases.git"].
Proof. vm_compute. reflexivity. Qed.

Example writer_leaves_its_file :
  final_fs env_luke D_writer fs_cloned
    !! "/srv/koinonia/database/scripts/output/psql/extras/cross_references.sql"
  = Some (RegularFile "CREATE TABLE cross_references ();").
Proof. vm_compute. reflexivity. Qed.

Example nothing_written_without_source :
  final_fs env_luke D_writer fs_empty = fs_empty.
Proof. reflexivity. Qed.

Example refusal_leaves_main :
  outcome env_luke D_refusing fs_cloned
  = Some (Error "FileNotFoundError" "cross_references.txt")
  /\ exit_status (outcome env_luke D_refusing fs_cloned) = 1%Z.
Proof. split; reflexivity. Qed.

(** ** The two directories *)

Lemma is_empty_app_nonempty (a : string) (c : ascii) (b : string) :
  PosixPath.is_empty (a +:+ String c b) = false.
Proof. destruct a; reflexivity. Qed.

(** The tilde form used by [main] never consults the password database:
    the home of the current user decides alone. *)
Lemma source_directory_cases (env : Env) :
  source_directory env =
    match user_home env with
    | Some h => PosixPath.rstrip_sep h +:+ "/Downloads/bible_databases/sources"
    | None => "~/Downloads/bible_databases/sources"
    end.
Proof.
  unfold source_directory, PosixPath.expanduser.
  cbn [Ascii.eqb PosixPath.tilde Bool.eqb PosixPath.before_sep PosixPath.from_sep
       PosixPath.is_sep PosixPath.sep PosixPath.is_empty].
  destruct (user_home env) as [h|]; [| reflexivity].
  rewrite is_empty_app_nonempty. reflexivity.
Qed.

Lemma format_directory_cases (env : Env) :
  let d := PosixPath.dirname (script_file env) in
  format_directory env =
    if PosixPath.is_empty d || PosixPath.endswith_sep d
    then d +:+ "output" else d +:+ "/output".
Proof. reflexivity. Qed.

Lemma directories_agree (env1 env2 : Env) :
  user_home env1 = user_home env2 ->
  script_file env1 = script_file env2 ->
  source_directory env1 = source_directory env2
  /\ format_directory env1 = format_directory env2.
Proof.
  intros Hh Hf. split.
  - rewrite !source_directory_cases, Hh. reflexivity.
  - unfold format_directory. rewrite Hf. reflexivity.
Qed.

(** ** Properties of the driver *)

(** C1.  When nothing exists at the source directory path, [main] prints the
    two lines of the remediation message (download the bible_databases
    repository: [git clone ...]) and returns; the constructor of
    [CrossReferencesGeneratorPSQL] and [generate] are never called. *)
Theorem missing_source_prints_and_returns (env : Env) (D : Delegate) (f : FileSystem) :
  f !! source_directory env = None ->
  trace env D f =
    [EvExists (source_directory env) false;
     EvPrint "ERROR: Please download the bible_databases repo first:";
     EvPrint "cd ~/Downloads && git clone https://github.com/scrollmapper/bible_databases.git"]
  /\ snd (run env D f) = inr tt
  /\ count is_init (trace env D f) = 0
  /\ count is_generate (trace env D f) = 0.
Proof.
  intros H. unfold trace. rewrite (run_missing env D f H). cbn [fst snd log].
  repeat split.
Qed.

Lemma missing_source_prints_and_returns_witness :
  fs_empty !! source_directory env_luke = None
  /\ count is_init (trace env_luke D_writer fs_empty) = 0.
Proof.
  assert (H : fs_empty !! source_directory env_luke = None) by reflexivity.
  split; [exact H |].
  exact (proj1 (proj2 (proj2
    (missing_source_prints_and_returns env_luke D_writer fs_empty H)))).
Defined.

(** C2, as stated, fails: with the source directory in place and a
    constructor that raises, [generate] is not called at all. *)
Lemma generate_skipped_when_constructor_raises :
  is_Some (fs_cloned !! source_directory env_luke)
  /\ ~ constructs_and_generates_once env_luke D_refusing fs_cloned.
Proof.
  split.
  - exists Directory. reflexivity.
  - unfold constructs_and_generates_once. intros [_ H].
    vm_compute in H. discriminate H.
Qed.

(** C2, amended.  When something exists at the source directory path,
    [main] calls the constructor exactly once, with [source_directory]
    first and [format_directory] second; if that call returns, [generate]
    is called exactly once, on the object just built and with no further
    argument; if it raises, [generate] is not called. *)
Theorem constructs_once_then_generates_once (env : Env) (D : Delegate) (f : FileSystem) :
  is_Some (f !! source_directory env) ->
  let t := trace env D f in
  let g := {| gen_source := source_directory env;
              gen_format := format_directory env |} in
  List.filter is_init t = [EvInit (source_directory env) (format_directory env)]
  /\ (d_init D (source_directory env) (format_directory env) f = None ->
      List.filter is_generate t = [EvGenerate g])
  /\ (d_init D (source_directory env) (format_directory env) f <> None ->
      List.filter is_generate t = []).
Proof.
  intros H t g. subst t. unfold trace.
  destruct (d_init D (source_directory env) (format_directory env) f) as [e|] eqn:Hi.
  - rewrite (run_init_raises env D f e H Hi). cbn.
    split; [reflexivity | split; [discriminate | reflexivity]].
  - destruct (d_generate D g f) as [f' [e|]] eqn:Hg.
    + rewrite (run_generate_raises env D f f' e H Hi Hg). cbn.
      split; [reflexivity | split; [reflexivity | congruence]].
    + rewrite (run_success env D f f' H Hi Hg). cbn.
      split; [reflexivity | split; [reflexivity | congruence]].
Qed.

Lemma constructs_once_then_generates_once_witness :
  is_Some (fs_cloned !! source_directory env_luke)
  /\ List.filter is_generate (trace env_luke D_writer fs_cloned)
     = [EvGenerate {| gen_source := source_directory env_luke;
                      gen_format := format_directory env_luke |}].
Proof.
  assert (H : is_Some (fs_cloned !! source_directory env_luke)).
  { exists Directory. reflexivity. }
  split; [exact H |].
  apply (constructs_once_then_generates_once env_luke D_writer fs_cloned H).
  reflexivity.
Defined.

(** C3.  The driver's own operations leave the file system as it is: the
    existence check, the prints and the constructor call do not change it,
    the check is made once, and the file system at the end of a run is the
    initial one when [generate] was not called and what [generate] made of
    the initial one when it was. *)
Theorem driver_writes_nothing (env : Env) (D : Delegate) (f : FileSystem) :
  (forall p s, fs (fst (path_exists p s)) = fs s)
  /\ (forall text s, fs (fst (print text s)) = fs s)
  /\ (forall src fmt s, fs (fst (construct D src fmt s)) = fs s)
  /\ count is_exists (trace env D f) = 1
  /\ final_fs env D f =
       if existsb is_generate (trace env D f)
       then fst (d_generate D {| gen_source := source_directory env;
                                 gen_format := format_directory env |} f)
       else f.
Proof.
  split; [reflexivity |]. split; [reflexivity |]. split.
  { intros src fmt s. unfold construct, bind, emit. cbn [fs log].
    destruct (d_init D src fmt (fs s)); reflexivity. }
  unfold final_fs, trace.
  destruct (f !! source_directory env) as [x|] eqn:Hx.
  - assert (H : is_Some (f !! source_directory env)) by (rewrite Hx; eauto).
    destruct (d_init D (source_directory env) (format_directory env) f)
      as [e|] eqn:Hi.
    + rewrite (run_init_raises env D f e H Hi). split; reflexivity.
    + destruct (d_generate D {| gen_source := source_directory env;
                                gen_format := format_directory env |} f)
        as [f' [e|]] eqn:Hg.
      * rewrite (run_generate_raises env D f f' e H Hi Hg). split; reflexivity.
      * rewrite (run_success env D f f' H Hi Hg). split; reflexivity.
  - rewrite (run_missing env D f Hx). split; reflexivity.
Qed.

(** C4.  When nothing exists at the source directory path, [main] prints
    and then returns: no exception leaves it, [SystemExit] included, and a
    script that ends this way exits with status 0. *)
Theorem missing_source_returns_normally (env : Env) (D : Delegate) (f : FileSystem) :
  f !! source_directory env = None ->
  run env D f =
    ({| fs := f;
        log := [EvExists (source_directory env) false;
                EvPrint remediation_1; EvPrint remediation_2] |}, inr tt)
  /\ outcome env D f = None
  /\ (forall code, outcome env D f <> Some (SystemExit code))
  /\ exit_status (outcome env D f) = 0%Z
  /\ snd (script env D "__main__" (initial f)) = inr tt.
Proof.
  intros H. unfold outcome.
  change (script env D "__main__" (initial f)) with (run env D f).
  rewrite (run_missing env D f H). cbn [snd].
  split; [reflexivity |]. split; [reflexivity |]. split; [discriminate |].
  split; reflexivity.
Qed.

Lemma missing_source_returns_normally_witness :
  fs_empty !! source_directory env_luke = None
  /\ exit_status (outcome env_luke D_refusing fs_empty) = 0%Z.
Proof.
  assert (H : fs_empty !! source_directory env_luke = None) by reflexivity.
  split; [exact H |].
  exact (proj1 (proj2 (proj2 (proj2
    (missing_source_returns_normally env_luke D_refusing fs_empty H))))).
Defined.



(** C8.  Two runs with the same home, the same [__file__] and the same
    file system are the same run, whatever [sys.argv] (and the working
    directory) may be: same events, same console output, same constructor
    arguments, same outcome, same final file system. *)
Theorem arguments_not_consumed (env1 env2 : Env) (D : Delegate) (f : FileSystem) :
  user_home env1 = user_home env2 ->
  script_file env1 = script_file env2 ->
  run env1 D f = run env2 D f
  /\ console (trace env1 D f) = console (trace env2 D f)
  /\ List.filter is_init (trace env1 D f) = List.filter is_init (trace env2 D f).
Proof.
  intros Hh Hf.
  destruct (directories_agree env1 env2 Hh Hf) as [Hs Hd].
  assert (Hrun : run env1 D f = run env2 D f).
  { unfold run, main, success_case, confirmation_2. rewrite Hs, Hd. reflexivity. }
  unfold trace. rewrite Hrun. repeat split.
Qed.

Lemma arguments_not_consumed_witness :
  argv env_luke <> argv env_luke_args
  /\ console (trace env_luke D_writer fs_cloned)
     = console (trace env_luke_args D_writer fs_cloned).
Proof.
  split; [discriminate |].
  exact (proj1 (proj2
    (arguments_not_consumed env_luke env_luke_args D_writer fs_cloned
       eq_refl eq_refl))).
Defined.

(** C9.  The check is for existence only.  Whatever [os.stat] finds at the
    source path, a regular file for instance, [main] takes the branch of
    the success case: no remediation line is printed, the constructor is
    called with the two paths, and [generate] follows as it does there. *)
Theorem existence_is_all_that_is_checked (env : Env) (D : Delegate)
    (f : FileSystem) (entry : Entry) :
  let src := source_directory env in
  let fmt := format_directory env in
  let g := {| gen_source := src; gen_format := fmt |} in
  f !! src = Some entry ->
  entry <> Directory ->
  run env D f = success_case env D {| fs := f; log := [EvExists src true] |}
  /\ ~ In (EvPrint remediation_1) (trace env D f)
  /\ ~ In (EvPrint remediation_2) (trace env D f)
  /\ List.filter is_init (trace env D f) = [EvInit src fmt]
  /\ (d_init D src fmt f = None ->
      List.filter is_generate (trace env D f) = [EvGenerate g]).
Proof.
  intros src fmt g Hx _.
  assert (H : is_Some (f !! source_directory env)).
  { fold src. rewrite Hx. eauto. }
  split.
  { unfold run, main, bind, path_exists, initial; cbn [fs log].
    rewrite (exists_true env f H). reflexivity. }
  unfold trace.
  destruct (d_init D src fmt f) as [e|] eqn:Hi.
  - rewrite (run_init_raises env D f e H Hi). cbn.
    repeat split; try discriminate; intros [[=] | [[=] | []]].
  - destruct (d_generate D g f) as [f' [e|]] eqn:Hg.
    + rewrite (run_generate_raises env D f f' e H Hi Hg). cbn.
      repeat split; intros [[=] | [[=] | [[=] | []]]].
    + rewrite (run_success env D f f' H Hi Hg). cbn.
      repeat split;
        intros [[=] | [[=] | [[=] | [Hp | [Hp | []]]]]]; vm_compute in Hp;
        discriminate Hp.
Qed.

Lemma existence_is_all_that_is_checked_witness :
  fs_file_in_place !! source_directory env_luke = Some (RegularFile "not a directory")
  /\ List.filter is_generate (trace env_luke D_writer fs_file_in_place)
     = [EvGenerate {| gen_source := source_directory env_luke;
                      gen_format := format_directory env_luke |}].
Proof.
  assert (H : fs_file_in_place !! source_directory env_luke
              = Some (RegularFile "not a directory")) by reflexivity.
  split; [exact H |].
  apply (existence_is_all_that_is_checked env_luke D_writer fs_file_in_place
           (RegularFile "not a directory") H); [discriminate | reflexivity].
Defined.

(** C10.  With the source path present, the events of a run are an initial
    part of one fixed sequence: the check, the constructor call, the
    [generate] call, the first confirmation print, the second.  The whole
    sequence happens when both calls return; when the constructor or
    [generate] raises, the run stops there and prints nothing. *)
Theorem effects_in_fixed_order (env : Env) (D : Delegate) (f : FileSystem) :
  let src := source_directory env in
  let fmt := format_directory env in
  let g := {| gen_source := src; gen_format := fmt |} in
  is_Some (f !! src) ->
  trace env D f `prefix_of` full_sequence env
  /\ (d_init D src fmt f = None -> snd (d_generate D g f) = None ->
      trace env D f = full_sequence env)
  /\ (d_init D src fmt f <> None ->
      trace env D f = [EvExists src true; EvInit src fmt]
      /\ count is_print (trace env D f) = 0)
  /\ (d_init D src fmt f = None -> snd (d_generate D g f) <> None ->
      trace env D f = [EvExists src true; EvInit src fmt; EvGenerate g]
      /\ count is_print (trace env D f) = 0).
Proof.
  intros src fmt g H. unfold trace.
  destruct (d_init D src fmt f) as [e|] eqn:Hi.
  - rewrite (run_init_raises env D f e H Hi). cbn [fst log].
    split; [| split; [| split]].
    + eexists. reflexivity.
    + discriminate.
    + intros _. split; reflexivity.
    + discriminate.
  - destruct (d_generate D g f) as [f' [e|]] eqn:Hg.
    + rewrite (run_generate_raises env D f f' e H Hi Hg). cbn [fst snd log].
      split; [| split; [| split]].
      * eexists. reflexivity.
      * discriminate.
      * congruence.
      * intros _ _. split; reflexivity.
    + rewrite (run_success env D f f' H Hi Hg). cbn [fst snd log].
      split; [| split; [| split]].
      * exists []. reflexivity.
      * reflexivity.
      * congruence.
      * congruence.
Qed.

Lemma effects_in_fixed_order_witness :
  is_Some (fs_cloned !! source_directory env_luke)
  /\ trace env_luke D_failing fs_cloned
     = [EvExists (source_directory env_luke) true;
        EvInit (source_directory env_luke) (format_directory env_luke);
        EvGenerate {| gen_source := source_directory env_luke;
                      gen_format := format_directory env_luke |}].
Proof.
  assert (H : is_Some (fs_cloned !! source_directory env_luke)).
  { exists Directory. reflexivity. }
  split; [exact H |].
  apply (effects_in_fixed_order env_luke D_failing fs_cloned H);
    [reflexivity | discriminate].
Defined.

(** ** The path helpers, in general *)

Example normpath_parent :
  PosixPath.normpath "/srv/koinonia/database/scripts/.." = "/srv/koinonia/database".
Proof. reflexivity. Qed.

Example normpath_examples :
  PosixPath.normpath "//a/./b/../../.." = "//"
  /\ PosixPath.normpath "a/../.." = ".."
  /\ PosixPath.normpath "///a//b/" = "/a/b"
  /\ PosixPath.normpath "./" = "."
  /\ PosixPath.normpath "/.." = "/".
Proof. repeat split. Qed.

Example sys_path_entry_luke : sys_path_entry env_luke = "/srv/koinonia/database".
Proof. reflexivity. Qed.

Example sys_path_entry_bare : sys_path_entry env_bare = "/srv/koinonia/database".
Proof. reflexivity. Qed.

Module PathFacts.

Import PosixPath.

Lemma append_cons (c : ascii) (a b : string) :
  String c a +:+ b = String c (a +:+ b).
Proof. reflexivity. Qed.

Lemma append_nil_r (s : string) : s +:+ EmptyString = s.
Proof.
  induction s as [|c s IH]; [reflexivity |]. by rewrite append_cons, IH.
Qed.

Lemma append_assoc (a b c : string) : (a +:+ b) +:+ c = a +:+ (b +:+ c).
Proof.
  induction a as [|x a IH]; [reflexivity |]. by rewrite !append_cons, IH.
Qed.

Lemma has_sep_app (a b : string) : has_sep (a +:+ b) = has_sep a || has_sep b.
Proof.
  induction a as [|c a IH]; [reflexivity |].
  rewrite append_cons. cbn [has_sep]. rewrite IH. apply orb_assoc.
Qed.

Lemma all_sep_app (a b : string) : all_sep (a +:+ b) = all_sep a && all_sep b.
Proof.
  induction a as [|c a IH]; [reflexivity |].
  rewrite append_cons. cbn [all_sep]. rewrite IH. apply andb_assoc.
Qed.

Lemma is_empty_app (a b : string) : is_empty (a +:+ b) = is_empty a && is_empty b.
Proof. destruct a; reflexivity. Qed.

Lemma is_empty_true (s : string) : is_empty s = true -> s = EmptyString.
Proof. destruct s; [reflexivity | discriminate]. Qed.

(** A path without separator has no directory part. *)
Lemma upto_last_sep_without (b : string) :
  has_sep b = false -> upto_last_sep b = EmptyString.
Proof. destruct b as [|c b]; [reflexivity |]. cbn [upto_last_sep]. by intros ->. Qed.

Lemma upto_last_sep_app (a b : string) :
  has_sep b = false ->
  upto_last_sep (a +:+ String sep b) = a +:+ String sep EmptyString.
Proof.
  intros Hb. induction a as [|c a IH].
  - change (EmptyString +:+ String sep b) with (String sep b).
    cbn [upto_last_sep has_sep]. rewrite (upto_last_sep_without b Hb). reflexivity.
  - rewrite !append_cons. cbn [upto_last_sep]. rewrite IH.
    assert (H : has_sep (String c (a +:+ String sep b)) = true).
    { cbn [has_sep]. rewrite has_sep_app. cbn [has_sep].
      change (is_sep sep) with true. by rewrite !orb_true_r. }
    by rewrite H.
Qed.

Lemma endswith_sep_without (s : string) : has_sep s = false -> endswith_sep s = false.
Proof.
  induction s as [|c s IH]; [reflexivity |]. cbn [has_sep endswith_sep].
  intros [Hc Hs]%orb_false_elim. destruct s; [exact Hc | by apply IH].
Qed.

Lemma endswith_sep_app (a b : string) :
  is_empty b = false -> endswith_sep (a +:+ b) = endswith_sep b.
Proof.
  intros Hb. induction a as [|c a IH]; [reflexivity |].
  rewrite append_cons. cbn [endswith_sep].
  destruct (a +:+ b) eqn:E; [| exact IH].
  destruct a; [| discriminate E].
  change (b = EmptyString) in E. subst b. discriminate Hb.
Qed.

(** Stripping changes nothing where there is nothing to strip. *)
Lemma rstrip_sep_id (s : string) : endswith_sep s = false -> rstrip_sep s = s.
Proof.
  induction s as [|c s IH]; [reflexivity |]. cbn [endswith_sep rstrip_sep].
  destruct s as [|c' s'].
  - intros ->. reflexivity.
  - intros H. rewrite (IH H). cbn [is_empty]. by rewrite andb_false_r.
Qed.

Lemma rstrip_sep_app_sep (a : string) :
  rstrip_sep (a +:+ String sep EmptyString) = rstrip_sep a.
Proof.
  induction a as [|c a IH]; [reflexivity |].
  rewrite append_cons. cbn [rstrip_sep]. by rewrite IH.
Qed.

(** What is left after stripping does not end in a separator. *)
Lemma endswith_sep_rstrip (s : string) : endswith_sep (rstrip_sep s) = false.
Proof.
  induction s as [|c s IH]; [reflexivity |]. cbn [rstrip_sep].
  destruct (is_sep c) eqn:Hc; cbn [andb].
  - destruct (rstrip_sep s) as [|c' s'] eqn:E; cbn [is_empty]; [reflexivity |].
    cbn [endswith_sep]. exact IH.
  - destruct (rstrip_sep s) as [|c' s'] eqn:E; cbn [endswith_sep]; [exact Hc | exact IH].
Qed.

Lemma rstrip_sep_idem (s : string) : rstrip_sep (rstrip_sep s) = rstrip_sep s.
Proof. apply rstrip_sep_id, endswith_sep_rstrip. Qed.

(** *** Names and rooted paths *)

Lemma is_name_elim (c : string) :
  is_name c = true ->
  is_empty c = false /\ has_sep c = false /\ c <> "." /\ c <> "..".
Proof.
  unfold is_name. intros H.
  apply andb_prop in H as [H H4]. apply andb_prop in H as [H H3].
  apply andb_prop in H as [H1 H2].
  apply negb_true_iff in H1, H2, H3, H4.
  apply String.eqb_neq in H3, H4. auto.
Qed.

Lemma name_starts (c : string) :
  is_name c = true -> exists x r, c = String x r /\ is_sep x = false.
Proof.
  intros (H1 & H2 & _)%is_name_elim. destruct c as [|x r]; [discriminate |].
  exists x, r. split; [reflexivity |].
  cbn [has_sep] in H2. by apply orb_false_elim in H2 as [? _].
Qed.

Lemma rooted_snoc (l : list string) (x : string) :
  rooted (l ++ [x]) = rooted l +:+ String sep x.
Proof.
  induction l as [|c l IH].
  - cbn [app rooted]. by rewrite append_nil_r.
  - cbn [app rooted]. rewrite IH, append_cons, append_assoc. reflexivity.
Qed.

Lemma names_snoc (l : list string) :
  names l -> l <> [] -> exists l' x, l = (l' ++ [x])%list /\ names l' /\ is_name x = true.
Proof.
  intros Hl Hne. destruct (exists_last Hne) as (l' & x & ->).
  apply Forall_app in Hl as [Hl' Hx]. exists l', x.
  split; [reflexivity |]. split; [exact Hl' |]. by inversion Hx.
Qed.

Lemma endswith_sep_rooted (l : list string) :
  names l -> endswith_sep (rooted l) = false.
Proof.
  intros Hl. destruct l as [|c l]; [reflexivity |].
  destruct (names_snoc (c :: l) Hl) as (l' & x & -> & _ & Hx); [discriminate |].
  apply is_name_elim in Hx as (Hx1 & Hx2 & _).
  rewrite rooted_snoc, endswith_sep_app by reflexivity.
  destruct x as [|y x]; [discriminate |].
  change (endswith_sep (String sep (String y x))) with (endswith_sep (String y x)).
  by apply endswith_sep_without.
Qed.

Lemma all_sep_rooted (c : string) (l : list string) :
  names (c :: l) -> all_sep (rooted (c :: l)) = false.
Proof.
  intros Hl. inversion Hl as [|? ? Hc _]; subst.
  destruct (name_starts c Hc) as (x & r & -> & Hx).
  cbn [rooted]. rewrite append_cons. cbn [all_sep]. rewrite Hx.
  by rewrite andb_false_r.
Qed.

(** The directory part of [/c1/.../cn/base] is [/c1/.../cn], the root
    when there is no component. *)
Lemma dirname_rooted (l : list string) (base : string) :
  names l -> has_sep base = false ->
  dirname (rooted (l ++ [base])) = directory_of l.
Proof.
  intros Hl Hb. unfold dirname.
  rewrite rooted_snoc, (upto_last_sep_app _ _ Hb).
  destruct l as [|c l]; [reflexivity |].
  rewrite is_empty_app, all_sep_app, (all_sep_rooted c l Hl).
  cbn [directory_of is_empty andb negb].
  rewrite andb_false_r. cbn [negb andb].
  rewrite rstrip_sep_app_sep. apply rstrip_sep_id, endswith_sep_rooted, Hl.
Qed.

(** Joining a relative piece to a directory puts it below. *)
Lemma join_directory_of (l : list string) (x : string) :
  names l -> startswith_sep x = false ->
  join (directory_of l) x = rooted (l ++ [x]).
Proof.
  intros Hl Hx. unfold join. rewrite Hx.
  destruct l as [|c l].
  - cbn [directory_of is_empty endswith_sep orb app rooted].
    change (is_sep sep) with true. by rewrite append_nil_r.
  - cbn [directory_of]. rewrite (endswith_sep_rooted _ Hl), rooted_snoc.
    reflexivity.
Qed.

(** *** Splitting and normalising *)

Lemma split_sep_app_without (c s x : string) (xs : list string) :
  has_sep c = false -> split_sep s = x :: xs ->
  split_sep (c +:+ s) = (c +:+ x) :: xs.
Proof.
  intros Hc Hs. induction c as [|y c IH]; [exact Hs |].
  cbn [has_sep] in Hc. apply orb_false_elim in Hc as [Hy Hc].
  rewrite append_cons. cbn [split_sep]. rewrite Hy, (IH Hc). reflexivity.
Qed.

Lemma split_sep_rooted (l : list string) :
  Forall (fun c => has_sep c = false) l ->
  split_sep (rooted l) = EmptyString :: l.
Proof.
  induction 1 as [|c l Hc _ IH]; [reflexivity |].
  cbn [rooted split_sep]. change (is_sep sep) with true. cbn match.
  rewrite (split_sep_app_without c (rooted l) EmptyString l Hc IH).
  by rewrite append_nil_r.
Qed.

Lemma names_without (l : list string) :
  names l -> Forall (fun c => has_sep c = false) l.
Proof.
  intros Hl. unfold names in Hl. eapply Forall_impl; [exact Hl |].
  intros c Hc. by apply is_name_elim in Hc as (_ & ? & _).
Qed.

(** A name is kept by the loop of [normpath]. *)
Lemma norm_step_name (n : nat) (acc : list string) (c : string) :
  is_name c = true -> norm_step n acc c = (acc ++ [c])%list.
Proof.
  intros (H1 & _ & H3 & H4)%is_name_elim. unfold norm_step.
  destruct c as [|y c]; [discriminate |].
  apply String.eqb_neq in H3, H4. rewrite H3, H4. reflexivity.
Qed.

Lemma fold_norm_step_names (n : nat) (l acc : list string) :
  names l -> fold_left (norm_step n) l acc = (acc ++ l)%list.
Proof.
  intros Hl. revert acc. induction Hl as [|c l Hc _ IH]; intros acc.
  - by rewrite app_nil_r.
  - cbn [fold_left]. rewrite (norm_step_name n acc c Hc), IH, <- app_assoc.
    reflexivity.
Qed.

(** Below the root, [..] after names drops the last of them. *)
Lemma norm_step_dotdot (l : list string) :
  names l -> norm_step 1 l ".." = removelast l.
Proof.
  intros Hl. unfold norm_step.
  change (String.eqb ".." EmptyString || String.eqb ".." ".") with false.
  change (negb (String.eqb ".." "..")) with false.
  cbn [Nat.eqb andb orb].
  assert (H : last_is_dotdot l = false); [| by rewrite H].
  unfold last_is_dotdot. destruct l as [|c l]; [reflexivity |].
  destruct (names_snoc (c :: l) Hl) as (l' & x & -> & _ & Hx); [discriminate |].
  rewrite last_snoc. apply is_name_elim in Hx as (_ & _ & _ & Hx).
  by apply String.eqb_neq.
Qed.

Lemma rooted_join_sep (c : string) (l : list string) :
  rooted (c :: l) = String sep (join_sep (c :: l)).
Proof.
  revert c. induction l as [|c' l IH]; intros c.
  - cbn [rooted join_sep]. by rewrite append_nil_r.
  - change (rooted (c :: c' :: l)) with (String sep (c +:+ rooted (c' :: l))).
    rewrite IH. reflexivity.
Qed.

Lemma initial_slashes_rooted (c : string) (l : list string) :
  is_empty c = false -> has_sep c = false ->
  initial_slashes (rooted (c :: l)) = 1.
Proof.
  intros H1 H2. destruct c as [|x c]; [discriminate |].
  cbn [has_sep] in H2. apply orb_false_elim in H2 as [Hx _].
  cbn [rooted]. rewrite append_cons. cbn [initial_slashes].
  change (is_sep sep) with true. cbn match. by rewrite Hx.
Qed.

(** [normpath] of [/c1/.../cn/..] is [/c1/.../c(n-1)], and the root when
    that leaves nothing. *)
Lemma normpath_rooted_dotdot (l : list string) :
  names l -> normpath (rooted (l ++ [".."])) = directory_of (removelast l).
Proof.
  intros Hl. unfold normpath.
  assert (Hs : initial_slashes (rooted (l ++ [".."])) = 1).
  { destruct l as [|c l].
    - reflexivity.
    - inversion Hl as [|? ? Hc _]; subst.
      apply is_name_elim in Hc as (? & ? & _).
      by apply initial_slashes_rooted. }
  assert (He : is_empty (rooted (l ++ [".."])) = false).
  { destruct l; reflexivity. }
  rewrite He, Hs, split_sep_rooted.
  2:{ apply Forall_app. split; [by apply names_without |].
      constructor; [reflexivity | constructor]. }
  cbn [fold_left]. change (norm_step 1 [] EmptyString) with (@nil string).
  rewrite fold_left_app, (fold_norm_step_names 1 l [] Hl). cbn [app fold_left].
  rewrite (norm_step_dotdot l Hl).
  destruct (removelast l) as [|c' l'] eqn:E; [reflexivity |].
  cbn [seps directory_of]. rewrite append_cons.
  change (EmptyString +:+ join_sep (c' :: l')) with (join_sep (c' :: l')).
  cbn [is_empty]. symmetry. apply rooted_join_sep.
Qed.

End PathFacts.

(** ** Every run of [main] has one of four shapes *)

Lemma run_shape (env : Env) (D : Delegate) (f : FileSystem) :
  let src := source_directory env in
  let fmt := format_directory env in
  let g := {| gen_source := src; gen_format := fmt |} in
  (f !! src = None
   /\ run env D f =
        ({| fs := f;
            log := [EvExists src false;
                    EvPrint remediation_1; EvPrint remediation_2] |}, inr tt))
  \/ (exists e, is_Some (f !! src) /\ d_init D src fmt f = Some e
      /\ run env D f =
           ({| fs := f; log := [EvExists src true; EvInit src fmt] |}, inl e))
  \/ (exists e f', is_Some (f !! src) /\ d_init D src fmt f = None
      /\ d_generate D g f = (f', Some e)
      /\ run env D f =
           ({| fs := f';
               log := [EvExists src true; EvInit src fmt; EvGenerate g] |},
            inl e))
  \/ (exists f', is_Some (f !! src) /\ d_init D src fmt f = None
      /\ d_generate D g f = (f', None)
      /\ run env D f =
           ({| fs := f';
               log := [EvExists src true; EvInit src fmt; EvGenerate g;
                       EvPrint confirmation_1; EvPrint (confirmation_2 env)] |},
            inr tt)).
Proof.
  intros src fmt g.
  assert (Hcase : f !! src = None \/ is_Some (f !! src)).
  { destruct (f !! src); [right; eauto | left; reflexivity]. }
  destruct Hcase as [Hx | H].
  - left. split; [exact Hx | by apply run_missing].
  - right. destruct (d_init D src fmt f) as [e|] eqn:Hi.
    + left. exists e. split; [exact H |]. split; [reflexivity |].
      by apply run_init_raises.
    + right. destruct (d_generate D g f) as [f' [e|]] eqn:Hg.
      * left. exists e, f'. split; [exact H |]. split; [reflexivity |].
        split; [reflexivity |]. by apply run_generate_raises.
      * right. exists f'. split; [exact H |]. split; [reflexivity |].
        split; [reflexivity |]. by apply run_success.
Qed.

(** The existence check comes first in every run. *)
Lemma trace_starts_with_check (env : Env) (D : Delegate) (f : FileSystem) :
  exists found rest, trace env D f = EvExists (source_directory env) found :: rest.
Proof.
  unfold trace.
  destruct (run_shape env D f)
    as [[_ ->] | [(e & _ & _ & ->) | [(e & f' & _ & _ & _ & ->) | (f' & _ & _ & _ & ->)]]];
    cbn [fst log]; eauto.
Qed.

(** ** Further properties: the directories *)

Lemma startswith_sep_rooted (c : string) (l : list string) :
  PosixPath.startswith_sep (PosixPath.rooted (c :: l)) = true.
Proof. reflexivity. Qed.

(** X1.  For a script at [/c1/.../cn/base] the entry appended to
    [sys.path] is [/c1/.../c(n-1)], the parent of the directory that holds
    the script (the root when the script sits in the root or just below),
    whatever the working directory. *)
Theorem sys_path_entry_is_parent (env : Env) (dirs : list string) (base : string) :
  PosixPath.names dirs ->
  PosixPath.has_sep base = false ->
  script_file env = PosixPath.rooted (dirs ++ [base]) ->
  sys_path_entry env = PosixPath.directory_of (removelast dirs).
Proof.
  intros Hd Hb Hf. unfold sys_path_entry, PosixPath.abspath.
  rewrite Hf, (PathFacts.dirname_rooted dirs base Hd Hb).
  rewrite (PathFacts.join_directory_of dirs ".." Hd eq_refl).
  assert (Hs : PosixPath.startswith_sep (PosixPath.rooted (dirs ++ [".."])) = true).
  { destruct dirs; reflexivity. }
  rewrite Hs. by apply PathFacts.normpath_rooted_dotdot.
Qed.

Lemma sys_path_entry_is_parent_witness :
  sys_path_entry env_luke = "/srv/koinonia/database".
Proof.
  exact (sys_path_entry_is_parent env_luke
           ["srv"; "koinonia"; "database"; "scripts"]
           "generate_cross_references.py"
           ltac:(repeat constructor) eq_refl eq_refl).
Defined.

(** X2.  When [__file__] is a bare file name, the entry appended to
    [sys.path] is the parent of the working directory. *)
Theorem sys_path_entry_bare_file (env : Env) (dirs : list string) :
  PosixPath.has_sep (script_file env) = false ->
  PosixPath.names dirs ->
  cwd env = PosixPath.directory_of dirs ->
  sys_path_entry env = PosixPath.directory_of (removelast dirs).
Proof.
  intros Hf Hd Hc. unfold sys_path_entry, PosixPath.abspath, PosixPath.dirname.
  rewrite (PathFacts.upto_last_sep_without _ Hf).
  cbn [PosixPath.is_empty negb andb].
  change (PosixPath.join EmptyString "..") with "..".
  change (PosixPath.startswith_sep "..") with false. cbn match.
  rewrite Hc, (PathFacts.join_directory_of dirs ".." Hd eq_refl).
  by apply PathFacts.normpath_rooted_dotdot.
Qed.

Lemma sys_path_entry_bare_file_witness :
  sys_path_entry env_bare = "/srv/koinonia/database".
Proof.
  exact (sys_path_entry_bare_file env_bare
           ["srv"; "koinonia"; "database"; "scripts"]
           eq_refl ltac:(repeat constructor) eq_refl).
Defined.

(** X3.  When [__file__] is a bare file name, [format_directory] is the
    relative path [output]: the output goes below the working directory. *)
Theorem format_directory_bare_file (env : Env) :
  PosixPath.has_sep (script_file env) = false ->
  format_directory env = "output".
Proof.
  intros Hf. unfold format_directory, PosixPath.dirname.
  rewrite (PathFacts.upto_last_sep_without _ Hf). reflexivity.
Qed.

Lemma format_directory_bare_file_witness : format_directory env_bare = "output".
Proof. exact (format_directory_bare_file env_bare eq_refl). Defined.

(** X4.  For a script at [/c1/.../cn/base], [format_directory] is
    [/c1/.../cn/output], beside the script. *)
Theorem format_directory_beside_script (env : Env) (dirs : list string)
    (base : string) :
  PosixPath.names dirs ->
  PosixPath.has_sep base = false ->
  script_file env = PosixPath.rooted (dirs ++ [base]) ->
  format_directory env = PosixPath.rooted (dirs ++ ["output"]).
Proof.
  intros Hd Hb Hf. unfold format_directory.
  rewrite Hf, (PathFacts.dirname_rooted dirs base Hd Hb).
  by apply PathFacts.join_directory_of.
Qed.

Lemma format_directory_beside_script_witness :
  format_directory env_luke = "/srv/koinonia/database/scripts/output".
Proof.
  exact (format_directory_beside_script env_luke
           ["srv"; "koinonia"; "database"; "scripts"]
           "generate_cross_references.py"
           ltac:(repeat constructor) eq_refl eq_refl).
Defined.

Lemma endswith_sep_split (a : string) :
  PosixPath.endswith_sep a = true ->
  exists d, a = d +:+ String PosixPath.sep EmptyString.
Proof.
  induction a as [|c a IH]; [discriminate |].
  cbn [PosixPath.endswith_sep]. destruct a as [|c' a'].
  - intros Hc. exists EmptyString.
    apply Ascii.eqb_eq in Hc. by rewrite Hc.
  - intros H. destruct (IH H) as [d Hd]. exists (String c d).
    by rewrite PathFacts.append_cons, <- Hd.
Qed.

(** X5.  Whatever [__file__] is, [format_directory] is [output] itself or
    ends in [/output]. *)
Theorem format_directory_ends_in_output (env : Env) :
  format_directory env = "output"
  \/ exists d, format_directory env = d +:+ "/output".
Proof.
  unfold format_directory, PosixPath.join.
  change (PosixPath.startswith_sep "output") with false. cbn match.
  set (a := PosixPath.dirname (script_file env)).
  destruct (PosixPath.is_empty a) eqn:He; cbn [orb].
  - left. by rewrite (PathFacts.is_empty_true a He).
  - right. destruct (PosixPath.endswith_sep a) eqn:Hs.
    + destruct (endswith_sep_split a Hs) as [d Hd]. exists d.
      rewrite Hd, PathFacts.append_assoc. reflexivity.
    + exists a. reflexivity.
Qed.

Lemma rstrip_sep_empty (u : string) :
  PosixPath.rstrip_sep u = EmptyString -> PosixPath.all_sep u = true.
Proof.
  induction u as [|c u IH]; [reflexivity |]. cbn [PosixPath.rstrip_sep PosixPath.all_sep].
  destruct (PosixPath.is_sep c); cbn [andb]; [| discriminate].
  destruct (PosixPath.rstrip_sep u); cbn [PosixPath.is_empty]; [| discriminate].
  intros _. by apply IH.
Qed.

(** The directory part of an absolute path is absolute. *)
Lemma startswith_sep_dirname (p : string) :
  PosixPath.startswith_sep p = true ->
  PosixPath.startswith_sep (PosixPath.dirname p) = true.
Proof.
  destruct p as [|c r]; [discriminate |]. cbn [PosixPath.startswith_sep].
  intros Hc. unfold PosixPath.dirname. cbn [PosixPath.upto_last_sep PosixPath.has_sep].
  rewrite Hc. cbn [orb PosixPath.is_empty negb andb PosixPath.all_sep].
  rewrite Hc. cbn [andb].
  destruct (PosixPath.all_sep (PosixPath.upto_last_sep r)) eqn:Ha; cbn [negb].
  - exact Hc.
  - cbn [PosixPath.rstrip_sep]. rewrite Hc. cbn [andb].
    destruct (PosixPath.rstrip_sep (PosixPath.upto_last_sep r)) eqn:E.
    + apply rstrip_sep_empty in E. congruence.
    + exact Hc.
Qed.

Lemma startswith_sep_join (d x : string) :
  PosixPath.startswith_sep d = true ->
  PosixPath.startswith_sep (PosixPath.join d x) = true.
Proof.
  intros Hd. unfold PosixPath.join.
  destruct (PosixPath.startswith_sep x) eqn:Hx; [exact Hx |].
  destruct d as [|c d]; [discriminate |].
  destruct (PosixPath.is_empty (String c d) || PosixPath.endswith_sep (String c d));
    exact Hd.
Qed.

(** X6.  With an absolute [__file__] the entry appended to [sys.path] is
    a function of [__file__] alone: the working directory, the home and
    the arguments play no part. *)
Theorem sys_path_entry_of_absolute_file (env1 env2 : Env) :
  PosixPath.startswith_sep (script_file env1) = true ->
  script_file env2 = script_file env1 ->
  sys_path_entry env2 = sys_path_entry env1.
Proof.
  intros Ha Hf. unfold sys_path_entry, PosixPath.abspath. rewrite Hf.
  by rewrite (startswith_sep_join _ ".." (startswith_sep_dirname _ Ha)).
Qed.

Lemma sys_path_entry_of_absolute_file_witness :
  cwd env_luke_args <> cwd env_luke
  /\ sys_path_entry env_luke_args = sys_path_entry env_luke.
Proof.
  split; [discriminate |].
  exact (sys_path_entry_of_absolute_file env_luke env_luke_args eq_refl eq_refl).
Defined.

(** ** Further properties: the source directory *)

Lemma run_determined_by_directories (env1 env2 : Env) (D : Delegate)
    (f : FileSystem) :
  source_directory env1 = source_directory env2 ->
  format_directory env1 = format_directory env2 ->
  run env1 D f = run env2 D f.
Proof.
  intros Hs Hd. unfold run, main, success_case, confirmation_2.
  rewrite Hs, Hd. reflexivity.
Qed.

(** X7.  For a user without a home directory the tilde is not expanded:
    [main] checks the relative path [~/Downloads/bible_databases/sources]
    as it stands, and that check is the first event of the run. *)
Theorem homeless_user_checks_literal_path (env : Env) (D : Delegate)
    (f : FileSystem) :
  user_home env = None ->
  source_directory env = "~/Downloads/bible_databases/sources"
  /\ head (trace env D f)
     = Some (EvExists "~/Downloads/bible_databases/sources"
               (bool_decide (is_Some (f !! "~/Downloads/bible_databases/sources")))).
Proof.
  intros Hh.
  assert (Hs : source_directory env = "~/Downloads/bible_databases/sources").
  { by rewrite source_directory_cases, Hh. }
  split; [exact Hs |]. rewrite <- Hs. unfold trace.
  destruct (run_shape env D f)
    as [[Hx ->] | [(e & H & _ & ->) | [(e & f' & H & _ & _ & ->) | (f' & H & _ & _ & ->)]]];
    cbn [fst log head]; do 2 f_equal; symmetry;
    first [by apply exists_false | by apply exists_true].
Qed.

Lemma homeless_user_checks_literal_path_witness :
  head (trace env_homeless D_writer fs_cloned)
  = Some (EvExists "~/Downloads/bible_databases/sources" false).
Proof.
  exact (proj2 (homeless_user_checks_literal_path env_homeless D_writer fs_cloned
                  eq_refl)).
Defined.

(** X8.  Trailing slashes of the home directory make no difference: two
    homes that are equal once stripped give the same source directory and
    the same run. *)
Theorem home_trailing_slashes_ignored (env1 env2 : Env) (h1 h2 : string)
    (D : Delegate) (f : FileSystem) :
  user_home env1 = Some h1 ->
  user_home env2 = Some h2 ->
  PosixPath.rstrip_sep h1 = PosixPath.rstrip_sep h2 ->
  script_file env1 = script_file env2 ->
  source_directory env1 = source_directory env2
  /\ run env1 D f = run env2 D f.
Proof.
  intros H1 H2 Hr Hf.
  assert (Hs : source_directory env1 = source_directory env2).
  { by rewrite !source_directory_cases, H1, H2, Hr. }
  split; [exact Hs |]. apply run_determined_by_directories; [exact Hs |].
  unfold format_directory. by rewrite Hf.
Qed.

Lemma home_trailing_slashes_ignored_witness :
  user_home env_luke <> user_home env_luke_slash
  /\ run env_luke D_writer fs_cloned = run env_luke_slash D_writer fs_cloned.
Proof.
  split; [discriminate |].
  exact (proj2 (home_trailing_slashes_ignored env_luke env_luke_slash
                  "/home/luke" "/home/luke/" D_writer fs_cloned
                  eq_refl eq_refl eq_refl eq_refl)).
Defined.

(** ** Further properties: what a run shows *)

(** X10.  No event of a run names a path other than the two directories:
    every existence check is on [source_directory], the constructor gets
    [source_directory] and [format_directory], and [generate] runs on an
    object holding these two.  In particular [format_directory] is never
    checked for existence. *)
Theorem events_name_only_the_directories (env : Env) (D : Delegate)
    (f : FileSystem) :
  Forall (names_only_the_directories env) (trace env D f).
Proof.
  unfold trace.
  destruct (run_shape env D f)
    as [[_ ->] | [(e & _ & _ & ->) | [(e & f' & _ & _ & _ & ->) | (f' & _ & _ & _ & ->)]]];
    cbn [fst log]; repeat constructor.
Qed.

(** ** Further properties: the module around [main] *)

Lemma script_other_name (env : Env) (D : Delegate) (name : string) (s : State) :
  name <> "__main__" -> script env D name s = (s, inr tt).
Proof.
  intros Hn. unfold script. apply String.eqb_neq in Hn. by rewrite Hn.
Qed.

(** X12.  Events of [main] occur, from a fresh interpreter, exactly when
    the module runs under the name [__main__] and the import has
    succeeded: a failed import, or an import of the module under another
    name, runs no part of [main]. *)
Theorem module_runs_main_only_as_main (env : Env) (imp : Importer)
    (name : string) (path : list string) (f : FileSystem) :
  log (proc (fst (run_module env imp name path f))) <> []
  <-> name = "__main__"
      /\ exists D, imp (path ++ [sys_path_entry env])%list f = inr D.
Proof.
  unfold run_module, module_body. cbn [sys_path proc fs initial].
  destruct (imp (path ++ [sys_path_entry env])%list f) as [e|D] eqn:Hi.
  - cbn [fst proc log initial]. split; [congruence |].
    intros [_ [D' [=]]].
  - destruct (decide (name = "__main__")) as [-> | Hn].
    + change (script env D "__main__" (initial f)) with (run env D f).
      destruct (trace_starts_with_check env D f) as (b & rest & Ht).
      unfold trace in Ht. destruct (run env D f) as [s' r]. cbn [fst proc] in *.
      rewrite Ht. split; [eauto | discriminate].
    + rewrite (script_other_name env D name _ Hn). cbn [fst proc log initial].
      split; [congruence | intros [? _]; congruence].
Qed.

(** X13.  An exception leaves the module exactly when the import raised
    it, or the import succeeded, the name is [__main__] and [main] ended
    with it. *)
Theorem module_exceptions (env : Env) (imp : Importer) (name : string)
    (path : list string) (f : FileSystem) (e : PyExc) :
  snd (run_module env imp name path f) = inl e
  <-> imp (path ++ [sys_path_entry env])%list f = inl e
      \/ exists D, imp (path ++ [sys_path_entry env])%list f = inr D
                   /\ name = "__main__" /\ snd (run env D f) = inl e.
Proof.
  unfold run_module, module_body. cbn [sys_path proc fs initial].
  destruct (imp (path ++ [sys_path_entry env])%list f) as [e0|D] eqn:Hi.
  - cbn [snd]. split.
    + intros [= ->]. by left.
    + intros [[= ->] | (D & [=] & _)]. reflexivity.
  - destruct (decide (name = "__main__")) as [-> | Hn].
    + change (script env D "__main__" (initial f)) with (run env D f).
      destruct (run env D f) as [s' r] eqn:Hr. cbn [snd]. split.
      * intros ->. right. exists D. by rewrite Hr.
      * intros [[=] | (D' & [= <-] & _ & Hs)]. by rewrite Hr in Hs.
    + rewrite (script_other_name env D name _ Hn). cbn [snd]. split.
      * intros [=].
      * intros [[=] | (D' & _ & Hname & _)]. congruence.
Qed.

(** The module on the concrete project: found through the appended entry
    when [scripts] lies below it, not found otherwise. *)
Example module_finds_package :
  let r := run_module env_luke (importer_on_path D_writer) "__main__"
             ["/usr/lib/python3"] fs_project in
  sys_path (fst r) = ["/usr/lib/python3"; "/srv/koinonia/database"]
  /\ snd r = inr tt
  /\ console (log (proc (fst r))) = confirmation_text env_luke.
Proof. vm_compute. repeat split. Qed.

Example module_misses_package :
  let r := run_module env_luke (importer_on_path D_writer) "__main__"
             ["/usr/lib/python3"] fs_cloned in
  snd r = inl (Error "ModuleNotFoundError" "No module named 'scripts'")
  /\ log (proc (fst r)) = [].
Proof. vm_compute. repeat split. Qed.

Example module_imported_as_library :
  let r := run_module env_luke (importer_on_path D_writer)
             "scripts.generate_cross_references" ["/usr/lib/python3"] fs_project in
  snd r = inr tt /\ log (proc (fst r)) = [] /\ fs (proc (fst r)) = fs_project.
Proof. vm_compute. repeat split. Qed.

(** ** The runs of [main] on a stream that can refuse *)

Section RunsOn.

Variable env : Env.
Variable D : Delegate.
Variable c : Console.
Variable f : FileSystem.

Let src := source_directory env.
Let fmt := format_directory env.
Let g := {| gen_source := src; gen_format := fmt |}.

Lemma run_on_missing :
  f !! src = None ->
  run_on env D c f =
    match c remediation_1 with
    | Some e => ({| fs := f; log := [EvExists src false] |}, inl e)
    | None =>
        match c remediation_2 with
        | Some e =>
            ({| fs := f; log := [EvExists src false; EvPrint remediation_1] |},
             inl e)
        | None =>
            ({| fs := f;
                log := [EvExists src false;
                        EvPrint remediation_1; EvPrint remediation_2] |},
             inr tt)
        end
    end.
Proof.
  intros H. unfold run_on, main_on, bind, path_exists, print_on, initial;
    cbn [fs log].
  rewrite (exists_false env f H). cbn [negb].
  destruct (c remediation_1); [reflexivity |]. cbn.
  destruct (c remediation_2); reflexivity.
Qed.

Lemma run_on_init_raises e :
  is_Some (f !! src) ->
  d_init D src fmt f = Some e ->
  run_on env D c f =
    ({| fs := f; log := [EvExists src true; EvInit src fmt] |}, inl e).
Proof.
  intros H Hi.
  unfold run_on, main_on, success_case_on, construct, bind, path_exists, emit,
    initial; cbn [fs log].
  rewrite (exists_true env f H). cbn [negb fs log app].
  fold src fmt. rewrite Hi. reflexivity.
Qed.

Lemma run_on_generate_raises f' e :
  is_Some (f !! src) ->
  d_init D src fmt f = None ->
  d_generate D g f = (f', Some e) ->
  run_on env D c f =
    ({| fs := f'; log := [EvExists src true; EvInit src fmt; EvGenerate g] |},
     inl e).
Proof.
  intros H Hi Hg.
  unfold run_on, main_on, success_case_on, construct, generate, bind,
    path_exists, emit, initial; cbn [fs log].
  rewrite (exists_true env f H). cbn [negb fs log app].
  fold src fmt. rewrite Hi. cbn [fs log app]. fold g. rewrite Hg. reflexivity.
Qed.

Lemma run_on_returns f' :
  is_Some (f !! src) ->
  d_init D src fmt f = None ->
  d_generate D g f = (f', None) ->
  run_on env D c f =
    match c confirmation_1 with
    | Some e =>
        ({| fs := f';
            log := [EvExists src true; EvInit src fmt; EvGenerate g] |}, inl e)
    | None =>
        match c (confirmation_2 env) with
        | Some e =>
            ({| fs := f';
                log := [EvExists src true; EvInit src fmt; EvGenerate g;
                        EvPrint confirmation_1] |}, inl e)
        | None =>
            ({| fs := f';
                log := [EvExists src true; EvInit src fmt; EvGenerate g;
                        EvPrint confirmation_1; EvPrint (confirmation_2 env)] |},
             inr tt)
        end
    end.
Proof.
  intros H Hi Hg.
  unfold run_on, main_on, success_case_on, construct, generate, print_on, bind,
    path_exists, emit, initial; cbn [fs log].
  rewrite (exists_true env f H). cbn [negb fs log app].
  fold src fmt. rewrite Hi. cbn [fs log app]. fold g. rewrite Hg.
  destruct (c confirmation_1); [reflexivity |]. cbn.
  destruct (c (confirmation_2 env)); reflexivity.
Qed.

End RunsOn.

(** On a stream that takes every text, this is the [main] above. *)
Lemma run_on_accepting (env : Env) (D : Delegate) (f : FileSystem) :
  run_on env D accepting f = run env D f.
Proof. reflexivity. Qed.

(** Every run on such a stream, by what decides it. *)
Lemma run_on_shape (env : Env) (D : Delegate) (c : Console) (f : FileSystem) :
  let src := source_directory env in
  let fmt := format_directory env in
  let g := {| gen_source := src; gen_format := fmt |} in
  (f !! src = None)
  \/ (exists e, is_Some (f !! src) /\ d_init D src fmt f = Some e)
  \/ (exists e f', is_Some (f !! src) /\ d_init D src fmt f = None
                   /\ d_generate D g f = (f', Some e))
  \/ (exists f', is_Some (f !! src) /\ d_init D src fmt f = None
                 /\ d_generate D g f = (f', None)).
Proof.
  intros src fmt g.
  destruct (f !! src) as [x|]; [right | by left].
  destruct (d_init D src fmt f) as [e|]; [left; eauto | right].
  destruct (d_generate D g f) as [f' [e|]]; [left | right]; eauto.
Qed.

(** C7, as stated, fails: on a standard output with the ASCII encoding the
    constructor and [generate] both return, and then the first confirmation
    [print] raises [UnicodeEncodeError], which leaves [main]. *)
Lemma print_raises_without_the_delegate :
  snd (run_on env_luke D_writer ascii_only fs_cloned)
  = inl (Error "UnicodeEncodeError" "'ascii' codec can't encode character")
  /\ ~ raises_iff_delegate_raises env_luke D_writer ascii_only fs_cloned.
Proof.
  assert (Hr : snd (run_on env_luke D_writer ascii_only fs_cloned)
               = inl (Error "UnicodeEncodeError"
                        "'ascii' codec can't encode character")).
  { vm_compute. reflexivity. }
  split; [exact Hr |].
  intros H. apply H in Hr. destruct Hr as [_ [Hi | [_ Hg]]].
  - vm_compute in Hi. discriminate Hi.
  - vm_compute in Hg. discriminate Hg.
Qed.

(** C7, amended.  An exception raised by the constructor or by [generate]
    leaves [main] as it is, whatever the standard output does: nothing in
    the driver catches or replaces it.  An exception that leaves [main] is
    either such a one or was raised by one of [main]'s own prints; so on a
    standard output that takes the driver's four texts, [main] raises
    exactly when the delegate does. *)
Theorem delegate_exceptions_pass_through (env : Env) (D : Delegate)
    (c : Console) (f : FileSystem) (e : PyExc) :
  (delegate_raises env D f e -> snd (run_on env D c f) = inl e)
  /\ (snd (run_on env D c f) = inl e ->
      delegate_raises env D f e
      \/ exists text, In text (driver_texts env) /\ c text = Some e)
  /\ ((forall text, In text (driver_texts env) -> c text = None) ->
      (snd (run_on env D c f) = inl e <-> delegate_raises env D f e)).
Proof.
  assert (H1 : delegate_raises env D f e -> snd (run_on env D c f) = inl e).
  { intros [H [Hi | [Hi Hg]]].
    - by rewrite (run_on_init_raises env D c f e H Hi).
    - destruct (d_generate D _ f) as [f' r] eqn:E. cbn [snd] in Hg. subst r.
      by rewrite (run_on_generate_raises env D c f f' e H Hi E). }
  assert (H2 : snd (run_on env D c f) = inl e ->
               delegate_raises env D f e
               \/ exists text, In text (driver_texts env) /\ c text = Some e).
  { unfold delegate_raises, driver_texts.
    destruct (run_on_shape env D c f)
      as [Hx | [(e0 & H & Hi) | [(e0 & f' & H & Hi & Hg) | (f' & H & Hi & Hg)]]].
    - rewrite (run_on_missing env D c f Hx).
      destruct (c remediation_1) as [e1|] eqn:E1.
      { intros [= <-]. right. exists remediation_1. split; [by left | exact E1]. }
      destruct (c remediation_2) as [e2|] eqn:E2.
      { intros [= <-]. right. exists remediation_2.
        split; [right; by left | exact E2]. }
      intros [=].
    - rewrite (run_on_init_raises env D c f e0 H Hi). intros [= <-].
      left. split; [exact H | by left].
    - rewrite (run_on_generate_raises env D c f f' e0 H Hi Hg). intros [= <-].
      left. split; [exact H |]. right. split; [exact Hi | by rewrite Hg].
    - rewrite (run_on_returns env D c f f' H Hi Hg).
      destruct (c confirmation_1) as [e1|] eqn:E1.
      { intros [= <-]. right. exists confirmation_1.
        split; [right; right; by left | exact E1]. }
      destruct (c (confirmation_2 env)) as [e2|] eqn:E2.
      { intros [= <-]. right. exists (confirmation_2 env).
        split; [right; right; right; by left | exact E2]. }
      intros [=]. }
  split; [exact H1 |]. split; [exact H2 |].
  intros Hc. split; [| exact H1].
  intros Hr. destruct (H2 Hr) as [Hd | (text & Hin & Ht)]; [exact Hd |].
  rewrite (Hc text Hin) in Ht. discriminate Ht.
Qed.

Lemma delegate_exceptions_pass_through_witness :
  delegate_raises env_luke D_refusing fs_cloned
    (Error "FileNotFoundError" "cross_references.txt")
  /\ snd (run_on env_luke D_refusing ascii_only fs_cloned)
     = inl (Error "FileNotFoundError" "cross_references.txt").
Proof.
  assert (H : delegate_raises env_luke D_refusing fs_cloned
                (Error "FileNotFoundError" "cross_references.txt")).
  { split; [exists Directory; reflexivity | left; reflexivity]. }
  split; [exact H |].
  exact (proj1 (delegate_exceptions_pass_through env_luke D_refusing ascii_only
                  fs_cloned (Error "FileNotFoundError" "cross_references.txt")) H).
Defined.

(** X9.  What [main] itself puts on the console is made of whole lines and
    is an initial part of one of two texts: of the two remediation lines
    when nothing is at the source path, of the two confirmation lines when
    the constructor and [generate] both return; a line is missing exactly
    from the first [print] that the standard output refused.  When the
    constructor or [generate] raises, [main] prints nothing. *)
Theorem console_is_whole_lines (env : Env) (D : Delegate) (c : Console)
    (f : FileSystem) :
  let src := source_directory env in
  let fmt := format_directory env in
  let g := {| gen_source := src; gen_format := fmt |} in
  console (trace_on env D c f) =
    match f !! src with
    | None =>
        match c remediation_1, c remediation_2 with
        | Some _, _ => EmptyString
        | None, Some _ => remediation_1 +:+ nl
        | None, None => remediation_text
        end
    | Some _ =>
        match d_init D src fmt f, snd (d_generate D g f) with
        | None, None =>
            match c confirmation_1, c (confirmation_2 env) with
            | Some _, _ => EmptyString
            | None, Some _ => confirmation_1 +:+ nl
            | None, None => confirmation_text env
            end
        | _, _ => EmptyString
        end
    end.
Proof.
  intros src fmt g. subst src fmt g. unfold trace_on.
  destruct (run_on_shape env D c f)
    as [Hx | [(e0 & H & Hi) | [(e0 & f' & H & Hi & Hg) | (f' & H & Hi & Hg)]]].
  - rewrite (run_on_missing env D c f Hx), Hx.
    destruct (c remediation_1); [reflexivity |].
    destruct (c remediation_2); reflexivity.
  - rewrite (run_on_init_raises env D c f e0 H Hi), Hi.
    destruct H as [x ->]. reflexivity.
  - rewrite (run_on_generate_raises env D c f f' e0 H Hi Hg), Hi, Hg.
    destruct H as [x ->]. reflexivity.
  - rewrite (run_on_returns env D c f f' H Hi Hg), Hi, Hg.
    destruct H as [x ->].
    destruct (c confirmation_1); [reflexivity |].
    destruct (c (confirmation_2 env)); reflexivity.
Qed.

Example console_on_ascii_stream :
  console (trace_on env_luke D_writer ascii_only fs_cloned) = EmptyString
  /\ console (trace_on env_luke D_writer ascii_only fs_empty) = remediation_text
  /\ console (trace_on env_luke D_writer accepting fs_cloned)
     = confirmation_text env_luke.
Proof. vm_compute. repeat split. Qed.

(** ** The two directories, by the shape of [__file__] *)

Lemma all_sep_endswith (d : string) :
  PosixPath.all_sep d = true -> PosixPath.is_empty d = false ->
  PosixPath.endswith_sep d = true.
Proof.
  induction d as [|ch r IH]; [discriminate |].
  cbn [PosixPath.all_sep PosixPath.endswith_sep].
  intros [Hc Hr]%andb_prop _. destruct r as [|ch' r']; [exact Hc |].
  by apply IH.
Qed.

(** The directory part of [d/base], [base] free of separators: [d] without
    its trailing separators, and [d/] as it stands when [d] has nothing
    but separators. *)
Lemma dirname_dir_base (d base : string) :
  PosixPath.has_sep base = false ->
  PosixPath.dirname (d +:+ String PosixPath.sep base) =
    if PosixPath.all_sep d then d +:+ String PosixPath.sep EmptyString
    else PosixPath.rstrip_sep d.
Proof.
  intros Hb. unfold PosixPath.dirname.
  rewrite (PathFacts.upto_last_sep_app d base Hb).
  rewrite PathFacts.is_empty_app, PathFacts.all_sep_app.
  cbn [PosixPath.is_empty PosixPath.all_sep].
  change (PosixPath.is_sep PosixPath.sep) with true.
  rewrite !andb_false_r, !andb_true_r. cbn [negb andb].
  destruct (PosixPath.all_sep d); cbn [negb]; [reflexivity |].
  apply PathFacts.rstrip_sep_app_sep.
Qed.

Lemma format_directory_dir_base (env : Env) (d base : string) :
  script_file env = d +:+ String PosixPath.sep base ->
  PosixPath.has_sep base = false ->
  format_directory env =
    (if PosixPath.all_sep d then d else PosixPath.rstrip_sep d) +:+ "/output".
Proof.
  intros Hf Hb. unfold format_directory.
  rewrite Hf, (dirname_dir_base d base Hb). unfold PosixPath.join.
  change (PosixPath.startswith_sep "output") with false. cbn match.
  destruct (PosixPath.all_sep d) eqn:Ha.
  - rewrite PathFacts.is_empty_app, PathFacts.endswith_sep_app by reflexivity.
    cbn [PosixPath.is_empty PosixPath.endswith_sep].
    change (PosixPath.is_sep PosixPath.sep) with true.
    rewrite andb_false_r. cbn [orb]. by rewrite PathFacts.append_assoc.
  - rewrite PathFacts.endswith_sep_rstrip.
    destruct (PosixPath.rstrip_sep d) eqn:E; [| reflexivity].
    apply rstrip_sep_empty in E. congruence.
Qed.

(** C5.  [source_directory] is the fixed path
    [~/Downloads/bible_databases/sources] with the tilde replaced by the
    user's home (trailing separators dropped).  [format_directory] is
    [output] in the directory that holds the script: for [__file__] of the
    form [d/base] it is [d/output] ([d] taken without trailing separators,
    the root staying the root), and for a bare file name it is [output].
    Both are fixed by the home and [__file__]: the working directory and
    the rest of the environment play no part. *)
Theorem directories_resolved (env : Env) :
  (forall h, user_home env = Some h ->
     source_directory env
     = PosixPath.rstrip_sep h +:+ "/Downloads/bible_databases/sources")
  /\ (forall d base,
        script_file env = d +:+ String PosixPath.sep base ->
        PosixPath.has_sep base = false ->
        PosixPath.is_empty d = false ->
        PosixPath.endswith_sep d = false ->
        format_directory env = d +:+ "/output")
  /\ (forall d base,
        script_file env = d +:+ String PosixPath.sep base ->
        PosixPath.has_sep base = false ->
        format_directory env =
          (if PosixPath.all_sep d then d else PosixPath.rstrip_sep d)
          +:+ "/output")
  /\ (PosixPath.has_sep (script_file env) = false ->
      format_directory env = "output")
  /\ (forall env', user_home env' = user_home env ->
                   script_file env' = script_file env ->
        source_directory env' = source_directory env
        /\ format_directory env' = format_directory env).
Proof.
  split; [| split; [| split; [| split]]].
  - intros h Hh. rewrite source_directory_cases, Hh. reflexivity.
  - intros d base Hf Hb He Hs.
    rewrite (format_directory_dir_base env d base Hf Hb).
    destruct (PosixPath.all_sep d) eqn:Ha.
    + rewrite (all_sep_endswith d Ha He) in Hs. discriminate Hs.
    + by rewrite (PathFacts.rstrip_sep_id d Hs).
  - intros d base. apply format_directory_dir_base.
  - intros Hf. unfold format_directory, PosixPath.dirname.
    rewrite (PathFacts.upto_last_sep_without _ Hf). reflexivity.
  - intros env'. apply directories_agree.
Qed.

Lemma directories_resolved_witness :
  source_directory env_luke = "/home/luke/Downloads/bible_databases/sources"
  /\ format_directory env_luke = "/srv/koinonia/database/scripts/output"
  /\ cwd env_luke_args <> cwd env_luke
  /\ format_directory env_luke_args = format_directory env_luke.
Proof.
  split; [| split; [| split]].
  - exact (proj1 (directories_resolved env_luke) "/home/luke" eq_refl).
  - exact (proj1 (proj2 (directories_resolved env_luke))
             "/srv/koinonia/database/scripts" "generate_cross_references.py"
             eq_refl eq_refl eq_refl eq_refl).
  - discriminate.
  - exact (proj2 (proj2 (proj2 (proj2 (proj2 (directories_resolved env_luke))))
                   env_luke_args eq_refl eq_refl)).
Defined.

Example format_directory_odd_files :
  PosixPath.join (PosixPath.dirname "/generate_cross_references.py") "output"
    = "/output"
  /\ PosixPath.join (PosixPath.dirname "scripts//generate_cross_references.py")
       "output" = "scripts/output"
  /\ PosixPath.join (PosixPath.dirname "../scripts/generate_cross_references.py")
       "output" = "../scripts/output".
Proof. repeat split. Qed.
